(** * Fetch-with-lifecycle contract of the post relay

    A shallow embedding of the two units that talk to the network:
    - [ApiData]: the NestJS service [ApiDataService] of
      [src/api-data/api-data.service.ts] (axios client, 502 wrapping);
    - [PostDisplay]: the React component of [PostDisplay.tsx] (native
      [fetch], [AbortController], three [useState] cells).

    Promises are modelled by the value they settle with; the one suspension
    point of each unit is the call to the transport, so a run is the code
    before the [await] followed by the code after it. *)

From stdpp Require Import base strings list pretty.
From Stdlib Require Import ZArith Lia.

#[local] Set Warnings "-register-all".

Local Open Scope Z_scope.
Local Open Scope string_scope.

(** ** JavaScript values shared by both units *)
Module Js.

(** A decoded JSON payload.  Type annotations such as [get<ApiPost>] or
    [as ApiPost] are erased at run time: what travels is this. *)
Inductive Json : Type :=
| JNull
| JBool (b : bool)
| JNumber (n : Z)
| JString (s : string)
| JArray (items : list Json)
| JObject (fields : list (string * Json)).

(** What a [throw] or a rejected promise can carry ([catch (e: unknown)]).
    [HttpException] is the NestJS class; it extends [Error], its [name] is
    the class name and, built from a string, its [message] is that string. *)
Inductive Thrown : Type :=
| JsError (name message : string)
| HttpException (response : string) (status : Z)
| NotError (v : Json).

(** [e instanceof Error] *)
Definition instanceof_Error (e : Thrown) : bool :=
  match e with
  | JsError _ _ | HttpException _ _ => true
  | NotError _ => false
  end.

(** [e.name] and [e.message], read after the [instanceof] test succeeded;
    on a value that is no [Error] the property is absent. *)
Definition name (e : Thrown) : string :=
  match e with
  | JsError n _ => n
  | HttpException _ _ => "HttpException"
  | NotError _ => "undefined"
  end.

Definition message (e : Thrown) : string :=
  match e with
  | JsError _ m => m
  | HttpException r _ => r
  | NotError _ => "undefined"
  end.

(** The value a promise settles with. *)
Inductive Settled (A : Type) : Type :=
| Fulfilled (v : A)
| Rejected (e : Thrown).
Arguments Fulfilled {A} v.
Arguments Rejected {A} e.

(** [Number.MAX_SAFE_INTEGER] and [Number.isSafeInteger]: the integers a
    JavaScript number holds exactly, one by one. *)
Definition MAX_SAFE_INTEGER : Z := 9007199254740991.

Definition isSafeInteger (n : Z) : bool := (Z.abs n <=? MAX_SAFE_INTEGER)%Z.

(** [`${n}`] for a safe integer [n]: plain decimal digits with a leading
    minus sign.  Past [MAX_SAFE_INTEGER] JavaScript prints the shortest
    digits of the double (and an exponent from 10^21 on), which this
    function does not follow: every statement that fixes the printed form
    of an id assumes [isSafeInteger]. *)
Definition Number_toString (n : Z) : string := pretty n.

(** [a ?? b] on a value that may be [undefined] *)
Definition nullish {A : Type} (a : option A) (b : A) : A :=
  match a with
  | Some x => x
  | None => b
  end.

End Js.

Import Js.
Infix "??" := nullish (at level 45, right associativity).

(** ** The server-side service *)
Module ApiData.

Definition DEFAULT_API_BASE_URL : string := "https://jsonplaceholder.typicode.com".

(** [HttpStatus.BAD_GATEWAY] of [@nestjs/common]. *)
Module HttpStatus.
Definition BAD_GATEWAY : Z := 502.
End HttpStatus.

(** The part of an axios response the service can see. *)
Record AxiosResponse : Type := {
  data : Json;
  status : Z;
  statusText : string
}.

(** The HTTP client.  Each service method calls [get] once, so the client
    is described by what that call settles with for the URL it is given. *)
Record AxiosInstance : Type := {
  get : string -> Settled AxiosResponse
}.

Record AxiosRequestConfig : Type := { timeout : Z }.

(** The [axios] module object: only [axios.create] is used. *)
Record AxiosStatic : Type := {
  create : AxiosRequestConfig -> AxiosInstance
}.

(** [process.env]: only ["API_BASE_URL"] is read. *)
Record ProcessEnv : Type := { API_BASE_URL : option string }.

Record ApiDataService : Type := {
  apiBaseUrl : string;
  httpClient : AxiosInstance
}.

Section Construction.
Variable env : ProcessEnv.

(** [new ApiDataService()] *)
Definition constructor (axios : AxiosStatic) : ApiDataService :=
  {| apiBaseUrl := API_BASE_URL env ?? DEFAULT_API_BASE_URL;
     httpClient := create axios {| timeout := 5000 |} |}.

(** [ApiDataService.createWithClient(client, baseUrl?)] *)
Definition createWithClient (client : AxiosInstance) (baseUrl : option string)
  : ApiDataService :=
  {| apiBaseUrl := baseUrl ?? API_BASE_URL env ?? DEFAULT_API_BASE_URL;
     httpClient := client |}.
End Construction.

Definition fetchPostById (this : ApiDataService) (postId : Z) : Settled Json :=
  let url := apiBaseUrl this +:+ "/posts/" +:+ Number_toString postId in
  match get (httpClient this) url with
  | Fulfilled response => Fulfilled (data response)
  | Rejected error =>
      let message :=
        if instanceof_Error error then message error
        else "Unknown error fetching post" in
      Rejected (HttpException
                  ("Failed to fetch post " +:+ Number_toString postId +:+ ": " +:+ message)
                  HttpStatus.BAD_GATEWAY)
  end.

Definition fetchAllPosts (this : ApiDataService) : Settled Json :=
  let url := apiBaseUrl this +:+ "/posts" in
  match get (httpClient this) url with
  | Fulfilled response => Fulfilled (data response)
  | Rejected error =>
      let message :=
        if instanceof_Error error then message error
        else "Unknown error fetching posts" in
      Rejected (HttpException
                  ("Failed to fetch posts: " +:+ message)
                  HttpStatus.BAD_GATEWAY)
  end.

(** *** Fixtures of [test/api-data.service.spec.ts] *)

Definition mockApiPost : Json :=
  JObject [("userId", JNumber 1); ("id", JNumber 1);
           ("title", JString "Test Post Title");
           ("body", JString "Test post body content")].

(** [mockGet.mockResolvedValue(r)] and [mockGet.mockRejectedValue(e)] *)
Definition mockResolvedValue (r : AxiosResponse) : AxiosInstance :=
  {| get := fun _ => Fulfilled r |}.

Definition mockRejectedValue (e : Thrown) : AxiosInstance :=
  {| get := fun _ => Rejected e |}.

Definition ok200 (d : Json) : AxiosResponse :=
  {| data := d; status := 200; statusText := "OK" |}.

Definition no_env : ProcessEnv := {| API_BASE_URL := None |}.

(** [[mockApiPost, { ...mockApiPost, id: 2 }]] *)
Definition mockPosts : Json :=
  JArray [mockApiPost;
          JObject [("userId", JNumber 1); ("id", JNumber 2);
                   ("title", JString "Test Post Title");
                   ("body", JString "Test post body content")]].

(** A client that serves one URL only and refuses every other one. *)
Definition serves_only (u : string) (r : AxiosResponse) : AxiosInstance :=
  {| get := fun x => if decide (x = u) then Fulfilled r
                     else Rejected (JsError "AxiosError" "Request failed with status code 404") |}.

End ApiData.


(** ** The client-side component *)
Module PostDisplay.

Record ApiPost : Type := {
  userId : Z;
  id : Z;
  title : string;
  body : string
}.

(** Both props are optional; [None] is an omitted prop.  [postId] is taken
    to be an integer; negative zero, which the dependency comparison tells
    from zero, is not represented. *)
Record PostDisplayProps : Type := {
  apiBaseUrl : option string;
  postId : option Z
}.

(** The destructuring defaults of the component's parameter; the pair is
    also the dependency array [[apiBaseUrl, postId]] of the effect. *)
Definition identity (props : PostDisplayProps) : string * Z :=
  (apiBaseUrl props ?? "http://localhost:3000/api", postId props ?? 1).

(** The three [useState] cells.  [post] and [error] are [null] at [None]. *)
Record State : Type := {
  post : option ApiPost;
  loading : bool;
  error : option string
}.

Definition initial : State :=
  {| post := None; loading := true; error := None |}.

(** A call of one of the three state setters. *)
Inductive Update : Type :=
| setPost (data : ApiPost)
| setLoading (b : bool)
| setError (e : option string).

Definition dispatch (s : State) (u : Update) : State :=
  match u with
  | setPost data => {| post := Some data; loading := loading s; error := error s |}
  | setLoading b => {| post := post s; loading := b; error := error s |}
  | setError e => {| post := post s; loading := loading s; error := e |}
  end.

Definition commit (us : list Update) (s : State) : State := foldl dispatch s us.

(** What the component reads of a [Response]; [json] is what
    [response.json()] settles with, its value taken at the declared type. *)
Record Response : Type := {
  ok : bool;
  status : Z;
  statusText : string;
  json : Settled ApiPost
}.

(** *** [fetchPost], cut at its suspension point

    Before the [await]: two setter calls, then [fetch(url, {signal})].
    [response.json()] is awaited too, but no setter runs between the two
    awaits, so the setter calls that follow are given as a function of what
    the two awaits settled with. *)
Definition fetchPost_begin : list Update := [setLoading true; setError None].

(** The rest of the [try] block: the setter calls it makes, or what it throws. *)
Definition fetchPost_try (r : Settled Response) : Settled (list Update) :=
  match r with
  | Fulfilled response =>
      if negb (ok response) then
        Rejected (JsError "Error"
                    ("HTTP " +:+ Number_toString (status response) +:+ ": "
                       +:+ statusText response))
      else
        match json response with
        | Fulfilled data => Fulfilled [setPost data]
        | Rejected err => Rejected err
        end
  | Rejected err => Rejected err
  end.

Definition fetchPost_catch (err : Thrown) : list Update :=
  if instanceof_Error err && negb (String.eqb (name err) "AbortError")
  then [setError (Some (message err))]
  else [].

Definition fetchPost_finally : list Update := [setLoading false].

Definition fetchPost_resume (r : Settled Response) : list Update :=
  match fetchPost_try r with
  | Fulfilled us => us
  | Rejected err => fetchPost_catch err
  end ++ fetchPost_finally.

(** *** Rendering *)

(** The four elements the component can return, by their [data-testid]. *)
Inductive Rendered : Type :=
| div_loading
| div_error (error : string)
| div_empty
| div_post_display (title body : string).

(** [if (error)]: [null] and the empty string are falsy. *)
Definition truthy (e : option string) : bool :=
  match e with
  | None => false
  | Some s => negb (String.eqb s "")
  end.

Definition render (s : State) : Rendered :=
  if loading s then div_loading
  else if truthy (error s) then div_error (default "" (error s))
  else match post s with
       | None => div_empty
       | Some p => div_post_display (title p) (body p)
       end.

Definition testid (v : Rendered) : string :=
  match v with
  | div_loading => "loading"
  | div_error _ => "error"
  | div_empty => "empty"
  | div_post_display _ _ => "post-display"
  end.

Definition textContent (v : Rendered) : string :=
  match v with
  | div_loading => "Loading..."
  | div_error e => "Error: " +:+ e
  | div_empty => "No post data"
  | div_post_display t b => t +:+ b
  end.

(** *** Lifecycle *)

(** One run of the effect: the URL it fetched, [controller.signal.aborted],
    and what its [fetchPost] call has settled with ([None] while pending). *)
Record Attempt : Type := {
  url : string;
  aborted : bool;
  promise : option (Settled Response)
}.

(** A component instance.  [effects] lists the runs of the effect, oldest
    first; the last one is the run whose cleanup is registered.  State
    updates of an instance that is no longer [mounted] are discarded. *)
Record Component : Type := {
  deps : string * Z;
  state : State;
  effects : list Attempt;
  mounted : bool
}.

Definition current (c : Component) : nat := pred (length (effects c)).

(** [controller.abort()] of run [k] *)
Definition abort (k : nat) (l : list Attempt) : list Attempt :=
  alter (fun a => {| url := url a; aborted := true; promise := promise a |}) k l.

(** The registered cleanup: [() => controller.abort()]. *)
Definition cleanup (c : Component) : Component :=
  {| deps := deps c; state := state c;
     effects := abort (current c) (effects c); mounted := mounted c |}.

(** The effect body up to the suspension of [fetchPost]. *)
Definition useEffect (d : string * Z) (c : Component) : Component :=
  {| deps := d;
     state := commit fetchPost_begin (state c);
     effects := effects c ++
       [{| url := d.1 +:+ "/posts/" +:+ Number_toString d.2;
           aborted := false; promise := None |}];
     mounted := mounted c |}.

Definition mount (props : PostDisplayProps) : Component :=
  useEffect (identity props)
    {| deps := identity props; state := initial; effects := []; mounted := true |}.

(** A later render: the effect re-runs (cleanup first) when a dependency changed. *)
Definition rerender (props : PostDisplayProps) (c : Component) : Component :=
  if mounted c then
    if decide (identity props = deps c) then c
    else useEffect (identity props) (cleanup c)
  else c.

Definition unmount (c : Component) : Component :=
  if mounted c then
    {| deps := deps c; state := state c;
       effects := abort (current c) (effects c); mounted := false |}
  else c.

(** The [fetchPost] call of run [k] resumes with [r]; a promise settles once. *)
Definition settle (k : nat) (r : Settled Response) (c : Component) : Component :=
  match effects c !! k with
  | None => c
  | Some a =>
      match promise a with
      | Some _ => c
      | None =>
          {| deps := deps c;
             state := if mounted c then commit (fetchPost_resume r) (state c)
                      else state c;
             effects := <[k := {| url := url a; aborted := aborted a;
                                  promise := Some r |}]> (effects c);
             mounted := mounted c |}
      end
  end.

Inductive Event : Type :=
| Render (props : PostDisplayProps)
| Settle (k : nat) (r : Settled Response)
| Unmount.

Definition step (c : Component) (e : Event) : Component :=
  match e with
  | Render props => rerender props c
  | Settle k r => settle k r c
  | Unmount => unmount c
  end.

Definition run (c : Component) (tr : list Event) : Component := foldl step c tr.

(** The URLs [fetch] was called with, in call order. *)
Definition fetched (c : Component) : list string := map url (effects c).

(** *** Observing a run *)

Definition is_aborted (c : Component) (k : nat) : bool :=
  match effects c !! k with
  | Some a => aborted a
  | None => false
  end.

Definition is_pending (c : Component) (k : nat) : bool :=
  match effects c !! k with
  | Some a => match promise a with None => true | Some _ => false end
  | None => false
  end.


(** The setter calls put a result into [post] or [error]. *)
Definition writes_outcome (us : list Update) : bool :=
  existsb (fun u => match u with
                    | setPost _ | setError _ => true
                    | setLoading _ => false
                    end) us.

(** The run, if any, whose result the event writes into [post] or [error]
    of the mounted instance. *)
Definition applied_step (c : Component) (e : Event) : list nat :=
  match e with
  | Settle k r =>
      if is_pending c k && mounted c && writes_outcome (fetchPost_resume r)
      then [k] else []
  | _ => []
  end.

(** The runs whose result reached [post] or [error] along a trace, in the
    order in which they settled. *)
Fixpoint applied (c : Component) (tr : list Event) : list nat :=
  match tr with
  | [] => []
  | e :: tr' => applied_step c e ++ applied (step c e) tr'
  end.

(** The attempt ends the way [fetch] (or [response.json()]) ends once its
    signal is aborted: it throws an [Error] named ["AbortError"]. *)
Definition rejects_with_AbortError (r : Settled Response) : bool :=
  match fetchPost_try r with
  | Fulfilled _ => false
  | Rejected err => instanceof_Error err && String.eqb (name err) "AbortError"
  end.









(** *** Fixtures of [test/post-display.spec.tsx] *)

Definition test_api (n : Z) : PostDisplayProps :=
  {| apiBaseUrl := Some "http://test.api"; postId := Some n |}.

Definition no_props : PostDisplayProps :=
  {| apiBaseUrl := None; postId := None |}.

Definition mockPost (n : Z) : ApiPost :=
  {| userId := 1; id := n; title := "Mocked Post Title";
     body := "Mocked post body content" |}.

Definition ok_response (p : ApiPost) : Response :=
  {| ok := true; status := 200; statusText := "OK"; json := Fulfilled p |}.

Definition not_found : Response :=
  {| ok := false; status := 404; statusText := "Not Found";
     json := Rejected (JsError "TypeError" "response.json is not a function") |}.

(** What [fetch] rejects with when its signal is aborted. *)
Definition AbortError : Thrown :=
  JsError "AbortError" "The operation was aborted.".

End PostDisplay.


(** * Properties of the service *)
Module ApiDataSpec.
Import ApiData.

Lemma fetchPostById_rejected (this : ApiDataService) (postId : Z) (e : Thrown) :
  get (httpClient this) (apiBaseUrl this +:+ "/posts/" +:+ Number_toString postId)
    = Rejected e ->
  fetchPostById this postId =
    Rejected (HttpException
      ("Failed to fetch post " +:+ Number_toString postId +:+ ": " +:+
         (if instanceof_Error e then message e else "Unknown error fetching post"))
      502).
Proof. intros Hget. unfold fetchPostById. now rewrite Hget. Qed.

Lemma fetchAllPosts_rejected (this : ApiDataService) (e : Thrown) :
  get (httpClient this) (apiBaseUrl this +:+ "/posts") = Rejected e ->
  fetchAllPosts this =
    Rejected (HttpException
      ("Failed to fetch posts: " +:+
         (if instanceof_Error e then message e else "Unknown error fetching posts"))
      502).
Proof. intros Hget. unfold fetchAllPosts. now rewrite Hget. Qed.

(** C3: when the client's [get] rejects with an [Error] carrying message [m],
    [fetchPostById id], for an integer [id] that a number holds exactly,
    fails with an [HttpException] whose message is exactly
    ["Failed to fetch post {id}: {m}"]. *)
Theorem fetchPostById_failure_message
  (this : ApiDataService) (postId : Z) (e : Thrown) (m : string) :
  isSafeInteger postId = true ->
  get (httpClient this) (apiBaseUrl this +:+ "/posts/" +:+ Number_toString postId)
    = Rejected e ->
  instanceof_Error e = true ->
  message e = m ->
  fetchPostById this postId =
    Rejected (HttpException
                ("Failed to fetch post " +:+ Number_toString postId +:+ ": " +:+ m)
                HttpStatus.BAD_GATEWAY).
Proof.
  intros _ Hget Herr <-.
  rewrite (fetchPostById_rejected _ _ _ Hget). now rewrite Herr.
Qed.

(** The test's instance of C3: id 999 against a client rejecting with
    [new Error("Network Error")]. *)
Lemma fetchPostById_failure_message_999 :
  fetchPostById
    (createWithClient no_env (mockRejectedValue (JsError "Error" "Network Error")) None)
    999
  = Rejected (HttpException "Failed to fetch post 999: Network Error" 502).
Proof.
  apply (fetchPostById_failure_message
           (createWithClient no_env
              (mockRejectedValue (JsError "Error" "Network Error")) None)
           999 (JsError "Error" "Network Error") "Network Error");
    reflexivity.
Defined.



(** C7: a service built by the constructor, whose [axios.create] call yields
    the client [t], and a service built by [createWithClient t] that resolves
    the same base URL, answer [fetchPostById] and [fetchAllPosts] alike. *)
Theorem construction_paths_agree
  (env : ProcessEnv) (axios : AxiosStatic) (t : AxiosInstance)
  (baseUrl : option string) :
  httpClient (constructor env axios) = t ->
  apiBaseUrl (createWithClient env t baseUrl) = apiBaseUrl (constructor env axios) ->
  (forall postId,
      fetchPostById (createWithClient env t baseUrl) postId
      = fetchPostById (constructor env axios) postId)
  /\ fetchAllPosts (createWithClient env t baseUrl)
     = fetchAllPosts (constructor env axios).
Proof.
  intros Hclient Hbase.
  assert (Hsame : createWithClient env t baseUrl = constructor env axios).
  { unfold createWithClient, constructor in *. simpl in *.
    rewrite Hbase, Hclient. reflexivity. }
  now rewrite Hsame.
Qed.

Lemma construction_paths_agree_mock :
  (forall postId,
      fetchPostById (createWithClient no_env (mockResolvedValue (ok200 mockApiPost)) None)
        postId
      = fetchPostById
          (constructor no_env {| create := fun _ => mockResolvedValue (ok200 mockApiPost) |})
          postId)
  /\ fetchAllPosts (createWithClient no_env (mockResolvedValue (ok200 mockApiPost)) None)
     = fetchAllPosts
         (constructor no_env {| create := fun _ => mockResolvedValue (ok200 mockApiPost) |}).
Proof.
  apply (construction_paths_agree no_env
           {| create := fun _ => mockResolvedValue (ok200 mockApiPost) |}
           (mockResolvedValue (ok200 mockApiPost)) None);
    reflexivity.
Defined.

(** C8: whatever [fetchPostById] or [fetchAllPosts] fails with is an
    [HttpException] of status 502; nothing else escapes. *)
Theorem failures_are_bad_gateway
  (this : ApiDataService) (postId : Z) (e : Thrown) :
  fetchPostById this postId = Rejected e \/ fetchAllPosts this = Rejected e ->
  exists msg : string, e = HttpException msg 502.
Proof.
  unfold fetchPostById, fetchAllPosts.
  intros [H | H];
    destruct (get (httpClient this) _) as [response | error]; try discriminate;
    injection H as <-; eexists; reflexivity.
Qed.

(** A client rejecting with a bare string: both methods fail with a 502. *)
Lemma failures_are_bad_gateway_string_rejection :
  exists msg : string,
    fetchAllPosts
      (createWithClient no_env (mockRejectedValue (NotError (JString "boom"))) None)
    = Rejected (HttpException msg 502).
Proof.
  destruct (failures_are_bad_gateway
              (createWithClient no_env
                 (mockRejectedValue (NotError (JString "boom"))) None)
              1
              (HttpException "Failed to fetch posts: Unknown error fetching posts" 502)
              (or_intror eq_refl))
    as [msg Hmsg].
  exists msg. rewrite <- Hmsg. reflexivity.
Defined.

(** C9: when the rejection is not an [Error] instance, the cause put into the
    message is ["Unknown error fetching post"] in [fetchPostById] (the id
    before it printed in decimal, for an id a number holds exactly) and
    ["Unknown error fetching posts"] in [fetchAllPosts]. *)
Theorem unknown_error_fallback (this : ApiDataService) (postId : Z) (e : Thrown) :
  instanceof_Error e = false ->
  (isSafeInteger postId = true ->
   get (httpClient this) (apiBaseUrl this +:+ "/posts/" +:+ Number_toString postId)
     = Rejected e ->
   fetchPostById this postId =
     Rejected (HttpException
                 ("Failed to fetch post " +:+ Number_toString postId
                    +:+ ": " +:+ "Unknown error fetching post")
                 HttpStatus.BAD_GATEWAY))
  /\ (get (httpClient this) (apiBaseUrl this +:+ "/posts") = Rejected e ->
      fetchAllPosts this =
        Rejected (HttpException
                    ("Failed to fetch posts: " +:+ "Unknown error fetching posts")
                    HttpStatus.BAD_GATEWAY)).
Proof.
  intros Hne. split; [intros _ Hget | intros Hget].
  - rewrite (fetchPostById_rejected _ _ _ Hget). now rewrite Hne.
  - rewrite (fetchAllPosts_rejected _ _ Hget). now rewrite Hne.
Qed.

Lemma unknown_error_fallback_string_rejection :
  fetchPostById
    (createWithClient no_env (mockRejectedValue (NotError (JString "boom"))) None) 7
  = Rejected (HttpException "Failed to fetch post 7: Unknown error fetching post" 502)
  /\ fetchAllPosts
       (createWithClient no_env (mockRejectedValue (NotError (JString "boom"))) None)
     = Rejected (HttpException "Failed to fetch posts: Unknown error fetching posts" 502).
Proof.
  destruct (unknown_error_fallback
              (createWithClient no_env
                 (mockRejectedValue (NotError (JString "boom"))) None)
              7 (NotError (JString "boom")) eq_refl) as [Hone Hall].
  split; [apply Hone | apply Hall]; reflexivity.
Defined.

End ApiDataSpec.


(** * Properties of the component *)
Module PostDisplaySpec.
Import PostDisplay.

Lemma settle_state (c : Component) (k : nat) (r : Settled Response) :
  mounted c = true -> is_pending c k = true ->
  state (settle k r c) = commit (fetchPost_resume r) (state c).
Proof.
  unfold is_pending, settle. intros Hm Hp.
  destruct (effects c !! k) as [a|]; [|discriminate].
  destruct (promise a); [discriminate|]. simpl. now rewrite Hm.
Qed.


Lemma resume_Error (r : Settled Response) (err : Thrown) :
  fetchPost_try r = Rejected err ->
  instanceof_Error err = true -> name err <> "AbortError" ->
  fetchPost_resume r = [setError (Some (message err)); setLoading false].
Proof.
  unfold fetchPost_resume, fetchPost_catch. intros -> -> Hname.
  apply String.eqb_neq in Hname. now rewrite Hname.
Qed.

(** *** The shape of a run *)


Section Decomposed.
Variables (c : Component) (old : list Attempt) (cur : Attempt).
Hypothesis Heff : effects c = (old ++ [cur])%list.

Lemma current_decomposed : current c = length old.
Proof. unfold current. rewrite Heff, length_app. simpl. lia. Qed.

Lemma lookup_current : effects c !! length old = Some cur.
Proof. rewrite Heff. apply list_lookup_middle. done. Qed.


Lemma lookup_old (k : nat) (a : Attempt) :
  effects c !! k = Some a -> k <> length old -> old !! k = Some a.
Proof.
  rewrite Heff. intros H Hk.
  apply lookup_app_Some in H as [H | [Hle H]]; [done|].
  destruct (k - length old)%nat as [|n] eqn:E; [lia|]. by destruct n.
Qed.
End Decomposed.



Lemma abort_current (old : list Attempt) (cur : Attempt) :
  abort (length old) (old ++ [cur])
  = (old ++ [{| url := url cur; aborted := true; promise := promise cur |}])%list.
Proof.
  unfold abort. rewrite <- (Nat.add_0_r (length old)) at 1.
  by rewrite alter_app_r.
Qed.

Lemma insert_current (old : list Attempt) (cur a : Attempt) :
  <[length old := a]> ((old ++ [cur])%list) = (old ++ [a])%list.
Proof.
  rewrite <- (Nat.add_0_r (length old)) at 1. by rewrite insert_app_r.
Qed.





(** *** The claims *)

(** C1, as the code has it: the identity changes from post 1 to post 2 while
    the first call is pending, so the first controller is aborted and the
    instance shows the loading state of the second run; when the first call
    then rejects with the [AbortError], [loading] is cleared and the instance
    renders the empty marker while the second call is still pending. *)
Theorem aborted_attempt_clears_loading :
  let c := run (mount (test_api 1)) [Render (test_api 2)] in
  let c' := settle 0 (Rejected AbortError) c in
  is_aborted c 0 = true /\ is_pending c 0 = true /\ is_pending c' 1 = true
  /\ state c = {| post := None; loading := true; error := None |}
  /\ state c' = {| post := None; loading := false; error := None |}
  /\ render (state c) = div_loading
  /\ render (state c') = div_empty.
Proof. vm_compute. repeat split. Qed.

(** C5: a response with [ok = false] puts the instance in the error state
    with message ["HTTP {status}: {statusText}"], rendered as
    ["Error: HTTP {status}: {statusText}"]. *)
Theorem non_ok_response_is_error (c : Component) (k : nat) (response : Response) :
  mounted c = true -> is_pending c k = true ->
  ok response = false ->
  let msg := "HTTP " +:+ Number_toString (status response) +:+ ": "
               +:+ statusText response in
  let s := state (settle k (Fulfilled response) c) in
  error s = Some msg /\ loading s = false
  /\ render s = div_error msg
  /\ textContent (render s) = "Error: " +:+ msg.
Proof.
  intros Hm Hp Hok msg s. subst s.
  rewrite (settle_state _ _ _ Hm Hp).
  rewrite (resume_Error _ (JsError "Error" msg)); try done.
  unfold fetchPost_try. now rewrite Hok.
Qed.

(** The scenario of the test: status 404, status text ["Not Found"]. *)
Lemma non_ok_response_is_error_404 :
  let s := state (settle 0 (Fulfilled not_found) (mount (test_api 999))) in
  error s = Some "HTTP 404: Not Found" /\ loading s = false
  /\ render s = div_error "HTTP 404: Not Found"
  /\ textContent (render s) = "Error: HTTP 404: Not Found".
Proof.
  apply (non_ok_response_is_error (mount (test_api 999)) 0 not_found);
    reflexivity.
Defined.

(** C10: an omitted [apiBaseUrl] defaults to ["http://localhost:3000/api"],
    an omitted [postId] to 1, and a mount without props calls [fetch] once,
    with ["http://localhost:3000/api/posts/1"]. *)
Theorem defaults_when_props_omitted :
  (forall n, (identity {| apiBaseUrl := None; postId := n |}).1
             = "http://localhost:3000/api")
  /\ (forall base, (identity {| apiBaseUrl := base; postId := None |}).2 = 1)
  /\ fetched (mount no_props) = ["http://localhost:3000/api/posts/1"].
Proof. repeat split. Qed.

(** C4, as the code has it: [fetch] rejects with a value that is not an
    [Error] instance.  This is no cancellation, yet the catch block drops it:
    [error] stays [null] and the instance renders the empty marker instead
    of an error message. *)
Lemma non_error_rejection_sets_no_error :
  let r := Rejected (NotError (JString "boom")) in
  let s := state (settle 0 r (mount (test_api 1))) in
  rejects_with_AbortError r = false
  /\ error s = None /\ loading s = false
  /\ render s = div_empty.
Proof. vm_compute. repeat split. Qed.

(** X15: a failure that is an [Error] instance whose name is not
    ["AbortError"] sets [error] to the failure's message and clears
    [loading], leaving [post] as it was; a non-empty message is rendered as
    ["Error: {message}"]. *)
Theorem error_rejection_is_shown (c : Component) (k : nat) (err : Thrown) :
  mounted c = true -> is_pending c k = true ->
  instanceof_Error err = true -> name err <> "AbortError" ->
  let s := state (settle k (Rejected err) c) in
  error s = Some (message err) /\ loading s = false
  /\ post s = post (state c)
  /\ (message err <> "" ->
      render s = div_error (message err)
      /\ textContent (render s) = "Error: " +:+ message err).
Proof.
  intros Hm Hp Herr Hname s. subst s.
  rewrite (settle_state _ _ _ Hm Hp).
  rewrite (resume_Error _ err); try done.
  repeat split; unfold render; simpl;
    apply String.eqb_neq in H; now rewrite H.
Qed.

(** The scenario of the test: [fetch] rejects with [new Error("Network failure")]. *)
Lemma error_rejection_is_shown_network_failure :
  let s := state (settle 0 (Rejected (JsError "Error" "Network failure"))
                    (mount (test_api 1))) in
  error s = Some "Network failure" /\ loading s = false
  /\ post s = None
  /\ render s = div_error "Network failure"
  /\ textContent (render s) = "Error: Network failure".
Proof.
  destruct (error_rejection_is_shown (mount (test_api 1)) 0
              (JsError "Error" "Network failure")
              eq_refl eq_refl eq_refl ltac:(discriminate))
    as (He & Hl & Hp & Hr).
  destruct (Hr ltac:(discriminate)) as [Hv Ht].
  repeat split; assumption.
Defined.




(** What that run evaluates to: the third call is the only one applied. *)
Example three_identities_show_third :
  let tr := [Render (test_api 2);
             Settle 0 (Rejected AbortError);
             Render (test_api 3);
             Settle 2 (Fulfilled (ok_response (mockPost 3)));
             Settle 1 (Rejected AbortError)] in
  let c := run (mount (test_api 1)) tr in
  applied (mount (test_api 1)) tr = [2]%nat
  /\ fetched c = ["http://test.api/posts/1"; "http://test.api/posts/2";
                  "http://test.api/posts/3"]
  /\ state c = {| post := Some (mockPost 3); loading := false; error := None |}.
Proof. vm_compute. repeat split. Qed.

End PostDisplaySpec.


(** * Further properties of the service *)
Module ApiDataMore.
Import ApiData ApiDataSpec.

(** X1: when the client's [get] rejects with an [Error] carrying message [m],
    [fetchAllPosts] fails with an [HttpException] of status 502 whose message
    is exactly ["Failed to fetch posts: {m}"]. *)
Theorem fetchAllPosts_failure_message
  (this : ApiDataService) (e : Thrown) (m : string) :
  get (httpClient this) (apiBaseUrl this +:+ "/posts") = Rejected e ->
  instanceof_Error e = true ->
  message e = m ->
  fetchAllPosts this =
    Rejected (HttpException ("Failed to fetch posts: " +:+ m) HttpStatus.BAD_GATEWAY).
Proof.
  intros Hget Herr <-.
  rewrite (fetchAllPosts_rejected _ _ Hget). now rewrite Herr.
Qed.

(** The test's instance: the client rejects with [new Error("Connection refused")]. *)
Lemma fetchAllPosts_failure_message_refused :
  fetchAllPosts
    (createWithClient no_env (mockRejectedValue (JsError "Error" "Connection refused")) None)
  = Rejected (HttpException "Failed to fetch posts: Connection refused" 502).
Proof.
  apply (fetchAllPosts_failure_message
           (createWithClient no_env
              (mockRejectedValue (JsError "Error" "Connection refused")) None)
           (JsError "Error" "Connection refused") "Connection refused");
    reflexivity.
Defined.

(** X2: when the client's [get] resolves, [fetchAllPosts] returns the decoded
    body as it is, whatever its shape and whatever the status. *)
Theorem fetchAllPosts_pass_through (this : ApiDataService) (response : AxiosResponse) :
  get (httpClient this) (apiBaseUrl this +:+ "/posts") = Fulfilled response ->
  fetchAllPosts this = Fulfilled (data response).
Proof. intros Hget. unfold fetchAllPosts. now rewrite Hget. Qed.

Lemma fetchAllPosts_pass_through_mockPosts :
  fetchAllPosts (createWithClient no_env (mockResolvedValue (ok200 mockPosts)) None)
  = Fulfilled mockPosts.
Proof.
  apply (fetchAllPosts_pass_through
           (createWithClient no_env (mockResolvedValue (ok200 mockPosts)) None)
           (ok200 mockPosts)).
  reflexivity.
Defined.

(** X3: a value returned by either method is the body of the response its
    one [get] call resolved with: an upstream failure is never turned into
    a value. *)
Theorem success_comes_from_upstream (this : ApiDataService) (postId : Z) (d : Json) :
  (isSafeInteger postId = true ->
   fetchPostById this postId = Fulfilled d ->
   exists r, get (httpClient this)
               (apiBaseUrl this +:+ "/posts/" +:+ Number_toString postId)
             = Fulfilled r
             /\ data r = d)
  /\ (fetchAllPosts this = Fulfilled d ->
      exists r, get (httpClient this) (apiBaseUrl this +:+ "/posts") = Fulfilled r
                /\ data r = d).
Proof.
  unfold fetchPostById, fetchAllPosts.
  split; [intros _ Hd | intros Hd];
    destruct (get (httpClient this) _) as [r|e]; try discriminate;
    injection Hd as <-; by exists r.
Qed.

Lemma success_comes_from_upstream_mocked :
  (exists r, get (mockResolvedValue (ok200 mockApiPost))
               "https://jsonplaceholder.typicode.com/posts/1"
             = Fulfilled r
             /\ data r = mockApiPost)
  /\ (exists r, get (mockResolvedValue (ok200 mockApiPost))
                  "https://jsonplaceholder.typicode.com/posts"
                = Fulfilled r
                /\ data r = mockApiPost).
Proof.
  destruct (success_comes_from_upstream
              (createWithClient no_env (mockResolvedValue (ok200 mockApiPost)) None)
              1 mockApiPost) as [Hone Hall].
  split; [apply Hone | apply Hall]; reflexivity.
Defined.

(** X4: how the base URL is resolved.  Without a [baseUrl] argument,
    [createWithClient] builds the very instance the constructor builds (for
    the client [axios.create] returns); an explicit [baseUrl] wins over the
    environment, so the result of a fetch no longer depends on it; and the
    empty string counts as a value, in the argument and in the environment. *)
Theorem base_url_resolution
  (env env' : ProcessEnv) (axios : AxiosStatic) (client : AxiosInstance)
  (b : string) (postId : Z) :
  createWithClient env (create axios {| timeout := 5000 |}) None = constructor env axios
  /\ fetchPostById (createWithClient env client (Some b)) postId
     = fetchPostById (createWithClient env' client (Some b)) postId
  /\ fetchAllPosts (createWithClient env client (Some b))
     = fetchAllPosts (createWithClient env' client (Some b))
  /\ apiBaseUrl (createWithClient env client (Some "")) = ""
  /\ apiBaseUrl (constructor {| API_BASE_URL := Some "" |} axios) = ""
  /\ apiBaseUrl (constructor {| API_BASE_URL := None |} axios)
     = "https://jsonplaceholder.typicode.com".
Proof. repeat split. Qed.

(** X5: post ids do not alias.  If the client serves the URL of post [postId]
    and refuses every other URL, then [fetchPostById] succeeds for [postId]
    and fails with a 502 for every other id, both ids being integers that a
    number holds exactly. *)
Theorem ids_do_not_alias
  (this : ApiDataService) (postId other : Z) (r : AxiosResponse) :
  isSafeInteger postId = true ->
  isSafeInteger other = true ->
  get (httpClient this) (apiBaseUrl this +:+ "/posts/" +:+ Number_toString postId)
    = Fulfilled r ->
  (forall u, u <> apiBaseUrl this +:+ "/posts/" +:+ Number_toString postId ->
             exists e, get (httpClient this) u = Rejected e) ->
  other <> postId ->
  fetchPostById this postId = Fulfilled (data r)
  /\ exists msg, fetchPostById this other = Rejected (HttpException msg 502).
Proof.
  intros _ _ Hserved Hrefused Hne. split.
  - unfold fetchPostById. by rewrite Hserved.
  - destruct (Hrefused (apiBaseUrl this +:+ "/posts/" +:+ Number_toString other))
      as [e He].
    + intros Heq. apply Hne.
      apply (inj (String.app (apiBaseUrl this))) in Heq.
      apply (inj (String.app "/posts/")) in Heq.
      by apply (inj pretty) in Heq.
    + rewrite (fetchPostById_rejected _ _ _ He). by eexists.
Qed.

Lemma ids_do_not_alias_1_vs_11 :
  fetchPostById
    (createWithClient no_env
       (serves_only "https://jsonplaceholder.typicode.com/posts/1" (ok200 mockApiPost))
       None) 1
  = Fulfilled mockApiPost
  /\ exists msg,
      fetchPostById
        (createWithClient no_env
           (serves_only "https://jsonplaceholder.typicode.com/posts/1" (ok200 mockApiPost))
           None) 11
      = Rejected (HttpException msg 502).
Proof.
  apply (ids_do_not_alias
           (createWithClient no_env
              (serves_only "https://jsonplaceholder.typicode.com/posts/1"
                 (ok200 mockApiPost)) None)
           1 11 (ok200 mockApiPost)).
  - reflexivity.
  - reflexivity.
  - reflexivity.
  - intros u Hu. simpl. destruct (decide _) as [Heq|_]; [|by eexists].
    exfalso. apply Hu. exact Heq.
  - discriminate.
Defined.

End ApiDataMore.


(** * Further properties of the component *)
Module PostDisplayMore.
Import PostDisplay PostDisplaySpec.

Lemma url_abort (k : nat) (l : list Attempt) : map url (abort k l) = map url l.
Proof.
  unfold abort. revert k. induction l as [|a l IH]; intros [|k]; simpl; try done.
  f_equal. apply IH.
Qed.

Lemma url_settled (k : nat) (a : Attempt) (r : Settled Response) (l : list Attempt) :
  l !! k = Some a ->
  map url (<[k := {| url := url a; aborted := aborted a; promise := Some r |}]> l)
  = map url l.
Proof.
  revert k. induction l as [|b l IH]; intros [|k] Hk; simpl in *; try done.
  - by injection Hk as ->.
  - f_equal. by apply IH.
Qed.

Lemma step_live (c : Component) (e : Event) :
  (exists old cur, effects c = (old ++ [cur])%list
                   /\ Forall (fun a => aborted a = true) old
                   /\ aborted cur = negb (mounted c)) ->
  exists old cur, effects (step c e) = (old ++ [cur])%list
                  /\ Forall (fun a => aborted a = true) old
                  /\ aborted cur = negb (mounted (step c e)).
Proof.
  intros (old & cur & Heff & Hold & Hcur).
  destruct e as [props | k r | ]; simpl.
  - unfold rerender. destruct (mounted c) eqn:Em; [|by exists old, cur; rewrite Em].
    destruct (decide _); [by exists old, cur; rewrite Em|].
    eexists _, _. simpl.
    rewrite (current_decomposed _ _ _ Heff), Heff, abort_current.
    split; [reflexivity|]. split; [|by rewrite Em].
    apply Forall_app. split; [done|]. by constructor.
  - unfold settle. destruct (effects c !! k) as [a|] eqn:Ea; [|by exists old, cur].
    destruct (promise a); [by exists old, cur|]. simpl.
    destruct (decide (k = length old)) as [-> | Hk].
    + rewrite (lookup_current _ _ _ Heff) in Ea. injection Ea as ->.
      eexists old, _. rewrite Heff, insert_current. done.
    + pose proof (lookup_old _ _ _ Heff _ _ Ea Hk) as Hka.
      pose proof (Forall_lookup_1 _ _ _ _ Hold Hka) as Haa. simpl in Haa.
      apply lookup_lt_Some in Hka as Hlt.
      eexists _, cur. rewrite Heff, insert_app_l by done.
      split; [reflexivity|]. split; [|done]. by apply Forall_insert.
  - unfold unmount. destruct (mounted c) eqn:Em; [|by exists old, cur; rewrite Em].
    eexists old, _. simpl.
    rewrite (current_decomposed _ _ _ Heff), Heff, abort_current. done.
Qed.

(** X6: every run of the effect starts from the loading state.  A mount
    starts with nothing to show; an identity change on a mounted instance
    sets [loading], clears [error] and keeps the [post] fetched before; in
    both cases the loading marker is rendered. *)
Theorem loading_first (c : Component) (props : PostDisplayProps) :
  mounted c = true ->
  identity props <> deps c ->
  state (mount props) = initial
  /\ render (state (mount props)) = div_loading
  /\ deps (rerender props c) = identity props
  /\ state (rerender props c)
     = {| post := post (state c); loading := true; error := None |}
  /\ render (state (rerender props c)) = div_loading.
Proof.
  intros Hm Hid. unfold rerender. rewrite Hm.
  destruct (decide _); [done|]. done.
Qed.

Lemma loading_first_after_success :
  let c := run (mount (test_api 1)) [Settle 0 (Fulfilled (ok_response (mockPost 1)))] in
  state (mount (test_api 2)) = initial
  /\ render (state (mount (test_api 2))) = div_loading
  /\ deps (rerender (test_api 2) c) = ("http://test.api", 2)
  /\ state (rerender (test_api 2) c)
     = {| post := Some (mockPost 1); loading := true; error := None |}
  /\ render (state (rerender (test_api 2) c)) = div_loading.
Proof.
  apply (loading_first
           (run (mount (test_api 1)) [Settle 0 (Fulfilled (ok_response (mockPost 1)))])
           (test_api 2)); [reflexivity|discriminate].
Defined.



(** X8: an OK response whose body cannot be decoded ([response.json()]
    rejects with an [Error] that is no [AbortError]) puts the decoder's
    message in [error], clears [loading] and leaves [post] as it was. *)
Theorem undecodable_body_is_error
  (c : Component) (k : nat) (response : Response) (err : Thrown) :
  mounted c = true -> is_pending c k = true ->
  ok response = true -> json response = Rejected err ->
  instanceof_Error err = true -> name err <> "AbortError" ->
  state (settle k (Fulfilled response) c)
  = {| post := post (state c); loading := false; error := Some (message err) |}.
Proof.
  intros Hm Hp Hok Hjson Herr Hname.
  rewrite (settle_state _ _ _ Hm Hp).
  rewrite (resume_Error _ err); try done.
  unfold fetchPost_try. by rewrite Hok, Hjson.
Qed.

Lemma undecodable_body_is_error_syntax :
  state (settle 0
           (Fulfilled {| ok := true; status := 200; statusText := "OK";
                         json := Rejected (JsError "SyntaxError"
                                             "Unexpected end of JSON input") |})
           (mount (test_api 1)))
  = {| post := None; loading := false;
       error := Some "Unexpected end of JSON input" |}.
Proof.
  apply (undecodable_body_is_error (mount (test_api 1)) 0
           {| ok := true; status := 200; statusText := "OK";
              json := Rejected (JsError "SyntaxError" "Unexpected end of JSON input") |}
           (JsError "SyntaxError" "Unexpected end of JSON input"));
    try reflexivity.
  discriminate.
Defined.

(** X9: an [Error] whose message is the empty string is stored but not
    shown: [error] becomes the empty string, which [if (error)] takes for no
    error, so the instance renders the post it holds, or the empty marker. *)
Theorem empty_message_is_not_rendered (c : Component) (k : nat) (err : Thrown) :
  mounted c = true -> is_pending c k = true ->
  instanceof_Error err = true -> name err <> "AbortError" ->
  message err = "" ->
  let s := state (settle k (Rejected err) c) in
  error s = Some ""
  /\ render s = match post (state c) with
                | None => div_empty
                | Some p => div_post_display (title p) (body p)
                end.
Proof.
  intros Hm Hp Herr Hname Hmsg s. subst s.
  rewrite (settle_state _ _ _ Hm Hp).
  rewrite (resume_Error _ err); try done.
  rewrite Hmsg. done.
Qed.

Lemma empty_message_is_not_rendered_on_mount :
  let s := state (settle 0 (Rejected (JsError "Error" "")) (mount (test_api 1))) in
  error s = Some "" /\ render s = div_empty.
Proof.
  apply (empty_message_is_not_rendered (mount (test_api 1)) 0 (JsError "Error" ""));
    try reflexivity.
  discriminate.
Defined.

(** X10: only an OK response with a decodable body changes [post].  Whatever
    else a call settles with (a rejection of any kind, a non-OK status, a
    body that fails to decode), the post fetched before stays in [post]. *)
Theorem failure_keeps_post
  (c : Component) (k : nat) (r : Settled Response) (err : Thrown) :
  mounted c = true -> is_pending c k = true ->
  fetchPost_try r = Rejected err ->
  post (state (settle k r c)) = post (state c).
Proof.
  intros Hm Hp Htry. rewrite (settle_state _ _ _ Hm Hp).
  unfold fetchPost_resume, fetchPost_catch. rewrite Htry.
  by destruct (instanceof_Error err && _).
Qed.

Lemma failure_keeps_post_after_success :
  post (state (run (mount (test_api 1))
                 [Settle 0 (Fulfilled (ok_response (mockPost 1)));
                  Render (test_api 999);
                  Settle 1 (Fulfilled not_found)]))
  = Some (mockPost 1).
Proof.
  apply (failure_keeps_post
           (run (mount (test_api 1))
              [Settle 0 (Fulfilled (ok_response (mockPost 1))); Render (test_api 999)])
           1 (Fulfilled not_found) (JsError "Error" "HTTP 404: Not Found"));
    reflexivity.
Defined.

Lemma run_live (tr : list Event) :
  forall c : Component,
    (exists old cur, effects c = (old ++ [cur])%list
                     /\ Forall (fun a => aborted a = true) old
                     /\ aborted cur = negb (mounted c)) ->
    exists old cur, effects (run c tr) = (old ++ [cur])%list
                    /\ Forall (fun a => aborted a = true) old
                    /\ aborted cur = negb (mounted (run c tr)).
Proof.
  induction tr as [|e tr IH]; intros c Hc; [done|].
  apply (IH (step c e)). by apply step_live.
Qed.

(** X11: along every run from a mount, whatever the transport does, every
    run of the effect but the last has its controller aborted, and the last
    one is aborted exactly when the instance is unmounted: a mounted
    instance has exactly one live controller. *)
Theorem one_live_controller (props : PostDisplayProps) (tr : list Event) :
  let c := run (mount props) tr in
  (current c < length (effects c))%nat
  /\ (forall k, (k < current c)%nat -> is_aborted c k = true)
  /\ is_aborted c (current c) = negb (mounted c).
Proof.
  intros c. subst c.
  assert (H0 : exists old cur, effects (mount props) = (old ++ [cur])%list
                 /\ Forall (fun a => aborted a = true) old
                 /\ aborted cur = negb (mounted (mount props))).
  { exists [], {| url := (identity props).1 +:+ "/posts/"
                          +:+ Number_toString (identity props).2;
                 aborted := false; promise := None |}. done. }
  pose proof (run_live tr _ H0) as Hlive.
  destruct Hlive as (old & cur & Heff & Hold & Hcur).
  unfold is_aborted. rewrite (current_decomposed _ _ _ Heff).
  rewrite (lookup_current _ _ _ Heff). rewrite Heff, length_app. simpl.
  split; [lia|]. split; [|done].
  intros k Hk. rewrite lookup_app_l by done.
  destruct (lookup_lt_is_Some_2 old k Hk) as [a Ha]. rewrite Ha.
  exact (Forall_lookup_1 _ _ _ _ Hold Ha).
Qed.

(** X12: [fetch] is called by the effect and nowhere else.  A settlement
    (so also a failure: there is no retry) and an unmount add no call and
    alter none; a render adds at most one call, none on an unmounted
    instance; and on a mounted instance a change of identity between
    integers that a number holds exactly adds exactly one call, to
    [{apiBaseUrl}/posts/{postId}] of the new identity. *)
Theorem fetch_per_identity_change
  (c : Component) (props : PostDisplayProps) (k : nat) (r : Settled Response) :
  fetched (settle k r c) = fetched c
  /\ fetched (unmount c) = fetched c
  /\ (mounted c = false -> fetched (rerender props c) = fetched c)
  /\ (mounted c = true ->
      identity props <> deps c ->
      isSafeInteger (identity props).2 = true ->
      isSafeInteger (deps c).2 = true ->
      fetched (rerender props c)
      = (fetched c ++ [(identity props).1 +:+ "/posts/"
                         +:+ Number_toString (identity props).2])%list)
  /\ exists more, fetched (rerender props c) = (fetched c ++ more)%list
                  /\ (length more <= 1)%nat.
Proof.
  unfold fetched. split; [|split; [|split; [|split]]].
  - unfold settle. destruct (effects c !! k) as [a|] eqn:Ea; [|done].
    destruct (promise a); [done|]. simpl. by apply url_settled.
  - unfold unmount. destruct (mounted c); [|done]. simpl. apply url_abort.
  - intros Hm. unfold rerender. by rewrite Hm.
  - intros Hm Hid _ _. unfold rerender. rewrite Hm.
    destruct (decide _); [done|]. simpl. by rewrite map_app, url_abort.
  - unfold rerender. destruct (mounted c).
    + destruct (decide _).
      * exists []. rewrite app_nil_r. split; [done|simpl; lia].
      * eexists [_]. simpl. rewrite map_app, url_abort. split; [done|simpl; lia].
    + exists []. rewrite app_nil_r. split; [done|simpl; lia].
Qed.

Lemma fetch_per_identity_change_1_to_2 :
  fetched (rerender (test_api 2) (mount (test_api 1)))
  = ["http://test.api/posts/1"; "http://test.api/posts/2"].
Proof.
  destruct (fetch_per_identity_change (mount (test_api 1)) (test_api 2) 0
              (Rejected AbortError)) as (_ & _ & _ & Hchange & _).
  apply Hchange; [reflexivity | discriminate | reflexivity | reflexivity].
Defined.

(** X13: while no call settles, the instance stays in the loading state,
    whatever renders and identity changes happen: there is no timeout. *)
Theorem loading_until_settled (props : PostDisplayProps) (tr : list Event) :
  Forall (fun e => match e with Settle _ _ => False | _ => True end) tr ->
  loading (state (run (mount props) tr)) = true
  /\ render (state (run (mount props) tr)) = div_loading.
Proof.
  intros Hno.
  assert (Hl : loading (state (run (mount props) tr)) = true).
  { assert (H0 : loading (state (mount props)) = true) by done.
    revert H0. generalize (mount props).
    induction Hno as [|e tr He _ IH]; intros c Hc; [done|].
    apply (IH (step c e)).
    destruct e as [q | k r | ]; [|done|]; simpl.
    - unfold rerender. destruct (mounted c); [|done]. by destruct (decide _).
    - unfold unmount. by destruct (mounted c). }
  split; [done|]. unfold render. by rewrite Hl.
Qed.

Lemma loading_until_settled_two_changes :
  loading (state (run (mount (test_api 1)) [Render (test_api 2); Render (test_api 3)]))
  = true
  /\ render (state (run (mount (test_api 1)) [Render (test_api 2); Render (test_api 3)]))
     = div_loading.
Proof.
  apply (loading_until_settled (test_api 1) [Render (test_api 2); Render (test_api 3)]).
  repeat constructor.
Defined.

(** X14: whatever a pending call of a mounted instance settles with
    (a post, a non-OK status, any rejection), [loading] is cleared: the
    loading marker is not rendered after a settlement. *)
Theorem settlement_clears_loading (c : Component) (k : nat) (r : Settled Response) :
  mounted c = true -> is_pending c k = true ->
  loading (state (settle k r c)) = false
  /\ render (state (settle k r c)) <> div_loading.
Proof.
  intros Hm Hp. rewrite (settle_state _ _ _ Hm Hp).
  assert (Hl : loading (commit (fetchPost_resume r) (state c)) = false).
  { unfold fetchPost_resume, commit. by rewrite foldl_app. }
  split; [done|]. unfold render. rewrite Hl.
  destruct (truthy _); [done|]. by destruct (post _).
Qed.

Lemma settlement_clears_loading_null_rejection :
  loading (state (settle 0 (Rejected (NotError JNull)) (mount (test_api 1)))) = false
  /\ render (state (settle 0 (Rejected (NotError JNull)) (mount (test_api 1))))
     <> div_loading.
Proof.
  apply (settlement_clears_loading (mount (test_api 1)) 0 (Rejected (NotError JNull)));
    reflexivity.
Defined.

End PostDisplayMore.
